(** * SAS Analytics Tools Explorer: a shallow embedding of the dashboard script

    The program is one Streamlit script: constant content tables, a five-way
    page dispatcher and five page renderers.  The embedding keeps that shape.
    A renderer is a computation in a small monad [UI] that

    - reads the user's widget selections (the session),
    - threads the state of numpy's global random generator,
    - appends to the trace of elements sent to the page, and
    - may raise a Python exception.

    Python dictionaries are association lists in insertion order (the order
    is visible: it is the order of the select box options, of the table
    columns and of the expanders).  Strings are byte strings holding the
    UTF-8 encoding of the source's literals. *)

From Stdlib Require Import ZArith QArith Qround Ascii String.
From stdpp Require Import base list strings gmap pretty.

Local Open Scope Z_scope.
Local Set Warnings "-register-all".

(** ** Python values *)

Inductive exn :=
| KeyError (key : string)
| ValueError (msg : string)
| TypeError (msg : string).

Inductive result (A : Type) :=
| Ok (a : A)
| Raise (e : exn).
Arguments Ok {A} a.
Arguments Raise {A} e.

(** [x == "literal"], where [None] is Python's [None]. *)
Definition py_eq (x : option string) (s : string) : bool :=
  match x with
  | Some t => String.eqb t s
  | None => false
  end.

(** Truth value of an optional string: [None] and the empty string are false. *)
Definition py_bool (x : option string) : bool :=
  match x with
  | Some t => negb (String.eqb t "")
  | None => false
  end.

(** What an f-string prints for [{x}]. *)
Definition py_str (x : option string) : string :=
  match x with
  | Some t => t
  | None => "None"
  end.

(** ** Dictionaries, in insertion order *)

Definition dict (V : Type) := list (string * V).

Definition keys {V} (d : dict V) : list string := map fst d.
Definition values {V} (d : dict V) : list V := map snd d.
Definition items {V} (d : dict V) : list (string * V) := d.

Fixpoint getitem {V} (d : dict V) (k : string) : result V :=
  match d with
  | [] => Raise (KeyError k)
  | (k', v) :: d' => if String.eqb k' k then Ok v else getitem d' k
  end.

(** ** Calendar dates and [pandas.date_range] with the month-end frequency *)

Record date := Date { year : Z; month : Z; day : Z }.

Definition date_leb (a b : date) : bool :=
  (year a <? year b)
  || ((year a =? year b)
      && ((month a <? month b) || ((month a =? month b) && (day a <=? day b)))).

Definition is_leap_year (y : Z) : bool :=
  (y mod 4 =? 0) && (negb (y mod 100 =? 0) || (y mod 400 =? 0)).

Definition days_in_month (y m : Z) : Z :=
  if m =? 2 then (if is_leap_year y then 29 else 28)
  else if (m =? 4) || (m =? 6) || (m =? 9) || (m =? 11) then 30
  else 31.

Definition digit_of_ascii (c : ascii) : option Z :=
  let n := Z.of_nat (nat_of_ascii c) in
  if (48 <=? n) && (n <=? 57) then Some (n - 48) else None.

Fixpoint digits_value (acc : Z) (s : string) : option Z :=
  match s with
  | EmptyString => Some acc
  | String c s' =>
      match digit_of_ascii c with
      | Some d => digits_value (10 * acc + d) s'
      | None => None
      end
  end.

Definition parse_digits (s : string) : option Z :=
  match s with
  | EmptyString => None
  | _ => digits_value 0 s
  end.

(** The ISO form [YYYY-MM-DD] the script writes its dates in. *)
Definition parse_date (s : string) : option date :=
  if (String.length s =? 10)%nat
     && String.eqb (String.substring 4 1 s) "-"
     && String.eqb (String.substring 7 1 s) "-"
  then
    match parse_digits (String.substring 0 4 s),
          parse_digits (String.substring 5 2 s),
          parse_digits (String.substring 8 2 s) with
    | Some y, Some m, Some d =>
        if (1 <=? m) && (m <=? 12) && (1 <=? d) && (d <=? days_in_month y m)
        then Some (Date y m d) else None
    | _, _, _ => None
    end
  else None.

(** The last day of the month that lies [k] months after month 1 of year 0. *)
Definition month_end (k : Z) : date :=
  let y := k / 12 in
  let m := k mod 12 + 1 in
  Date y m (days_in_month y m).

Definition month_index (d : date) : Z := 12 * year d + (month d - 1).

(** Every month end [d] with [start <= d <= stop], in increasing order. *)
Definition month_end_range (start stop : date) : list date :=
  let first := month_index start in
  let n := Z.to_nat (month_index stop - first + 1) in
  filter (fun d => date_leb start d && date_leb d stop = true)
         (map (fun i => month_end (first + Z.of_nat i)) (seq 0 n)).

(** [pd.date_range(start=..., end=..., freq=...)].  Of pandas' frequency
    aliases only ["M"], month end, the one the script passes, is modelled. *)
Definition pd_date_range (start stop freq : string) : result (list date) :=
  match parse_date start, parse_date stop with
  | Some a, Some b =>
      if String.eqb freq "M" then Ok (month_end_range a b)
      else Raise (ValueError ("Invalid frequency: " +:+ freq))
  | _, _ => Raise (ValueError "could not convert string to Timestamp")
  end.

(** ** The numeric libraries, as an interface

    Floating-point numbers, numpy's random generator, pandas' reductions and
    Python's float formatting are not part of the script.  They are taken as
    an interface: every statement below holds for all its implementations. *)

Class Numeric := {
  (** IEEE doubles *)
  float : Type;
  (** the state of numpy's global generator *)
  rng : Type;
  (** one draw from the normal distribution [loc], [scale] *)
  normal_draw : Q -> Q -> rng -> float * rng;
  (** one draw from the uniform distribution on [low, high) *)
  uniform_draw : Q -> Q -> rng -> float * rng;
  (** [Series.mean()] and [Series.sum()] of a float column *)
  series_mean : list float -> float;
  series_sum : list float -> float;
  (** [format(x, spec)] of a float *)
  format_float : string -> float -> string
}.

(** [size] successive draws, as numpy fills an array of that size. *)
Fixpoint draws {N : Numeric} (step : rng -> float * rng) (size : nat) (g : rng)
  : list float * rng :=
  match size with
  | O => ([], g)
  | S n =>
      let (x, g1) := step g in
      let (xs, g2) := draws step n g1 in
      (x :: xs, g2)
  end.

Section Dashboard.
Context {N : Numeric}.

(** ** Data frames *)

Inductive cell :=
| CStr (s : string)
| CInt (z : Z)
| CBool (b : bool)
| CFloat (x : float)
| CDate (d : date).

Record DataFrame := {
  df_index : list cell;
  df_columns : dict (list cell)
}.

Definition range_index (n : nat) : list cell :=
  map (fun i => CInt (Z.of_nat i)) (seq 0 n).

(** [pd.DataFrame(data)] and [pd.DataFrame(data, index=...)]: every column
    must be as long as the index, which is [0 .. n-1] when none is given. *)
Definition pd_DataFrame (data : dict (list cell)) (index : option (list cell))
  : result DataFrame :=
  match index with
  | Some idx =>
      if forallb (fun c => (length (snd c) =? length idx)%nat) data
      then Ok {| df_index := idx; df_columns := data |}
      else Raise (ValueError "Length of values does not match length of index")
  | None =>
      match data with
      | [] => Ok {| df_index := []; df_columns := [] |}
      | (_, c0) :: _ =>
          if forallb (fun c => (length (snd c) =? length c0)%nat) data
          then Ok {| df_index := range_index (length c0); df_columns := data |}
          else Raise (ValueError "All arrays must be of the same length")
      end
  end.

Definition n_rows (df : DataFrame) : nat := length (df_index df).
Definition n_columns (df : DataFrame) : nat := length (df_columns df).

(** [df[name]] *)
Definition df_getitem (df : DataFrame) (name : string) : result (list cell) :=
  getitem (df_columns df) name.

Fixpoint as_floats (col : list cell) : option (list float) :=
  match col with
  | [] => Some []
  | CFloat x :: col' =>
      match as_floats col' with
      | Some xs => Some (x :: xs)
      | None => None
      end
  | _ :: _ => None
  end.

(** [df[name].mean()] and [df[name].sum()], for a column of floats. *)
Definition column_reduce (f : list float -> float) (df : DataFrame) (name : string)
  : result float :=
  match df_getitem df name with
  | Raise e => Raise e
  | Ok col =>
      match as_floats col with
      | Some xs => Ok (f xs)
      | None => Raise (TypeError "not a float column")
      end
  end.

(** [df.style.applymap(f)]: the frame with one CSS declaration per cell. *)
Record Styler := {
  styled_frame : DataFrame;
  styled_css : dict (list string)
}.

Definition cell_bool (c : cell) : bool :=
  match c with
  | CBool b => b
  | CStr s => negb (String.eqb s "")
  | CInt z => negb (z =? 0)
  | CFloat _ => true
  | CDate _ => true
  end.

Definition style_applymap (f : cell -> string) (df : DataFrame) : Styler :=
  {| styled_frame := df;
     styled_css := map (fun c => (fst c, map f (snd c))) (df_columns df) |}.

(** ** Plotly figures *)

Inductive chart_kind := Bar | Line.

Record Figure := {
  fig_kind : chart_kind;
  fig_data : DataFrame;
  fig_x : string;
  fig_y : option string;
  fig_title : string;
  fig_labels : dict string;
  fig_color : option string
}.

(** ** What the script sends to the page *)

Inductive container :=
| Sidebar
| Column (i : nat)
| Expander (label : string)
| Call (function : string).

Inductive element :=
| PageConfig (page_title page_icon layout : string)
| Title (body : string)
| Markdown (body : string)
| Header (body : string)
| Subheader (body : string)
| Text (body : string)
| Radio (label : string) (options : list string) (value : option string)
| Selectbox (label : string) (options : list string) (value : option string)
| Columns (widths : list nat)
| Table (data : Styler)
| PlotlyChart (fig : Figure)
| Metric (label value : string)
| Block (c : container) (body : list element).

(** ** The monad of a script run *)

(** The option each widget shows as selected, by the widget's label; an
    untouched widget shows its first option. *)
Definition session := string -> nat.

Definition UI (A : Type) : Type :=
  session -> rng -> result (A * rng * list element).

Definition ret {A} (a : A) : UI A := fun _ g => Ok (a, g, []).

Definition bind {A B} (m : UI A) (f : A -> UI B) : UI B :=
  fun ss g =>
    match m ss g with
    | Raise e => Raise e
    | Ok (a, g1, t1) =>
        match f a ss g1 with
        | Raise e => Raise e
        | Ok (b, g2, t2) => Ok (b, g2, t1 ++ t2)
        end
    end.

#[global] Instance ui_ret : MRet UI := @ret.
#[global] Instance ui_bind : MBind UI := fun A B f m => bind m f.

Definition emit (e : element) : UI unit := fun _ g => Ok (tt, g, [e]).

Definition lift {A} (r : result A) : UI A :=
  fun _ g =>
    match r with
    | Ok a => Ok (a, g, [])
    | Raise e => Raise e
    end.

(** [with c: body], and the body of a called function: what the body sends
    goes to the container. *)
Definition within {A} (c : container) (body : UI A) : UI A :=
  fun ss g =>
    match body ss g with
    | Raise e => Raise e
    | Ok (a, g1, t) => Ok (a, g1, [Block c t])
    end.

(** [for x in xs: body] *)
Fixpoint for_each {A} (xs : list A) (body : A -> UI unit) : UI unit :=
  match xs with
  | [] => ret tt
  | x :: xs' => body x;; for_each xs' body
  end.

(** *** Streamlit's calls *)

Definition st_set_page_config (page_title page_icon layout : string) : UI unit :=
  emit (PageConfig page_title page_icon layout).
Definition st_title (body : string) : UI unit := emit (Title body).
Definition st_markdown (body : string) : UI unit := emit (Markdown body).
Definition st_header (body : string) : UI unit := emit (Header body).
Definition st_subheader (body : string) : UI unit := emit (Subheader body).
Definition st_write (body : string) : UI unit := emit (Text body).
Definition st_dataframe (data : Styler) : UI unit := emit (Table data).
Definition st_plotly_chart (fig : Figure) : UI unit := emit (PlotlyChart fig).
Definition st_metric (label value : string) : UI unit := emit (Metric label value).

(** A single-choice control returns the option the session selects, or
    [None] when there is none. *)
Definition st_radio (label : string) (options : list string) : UI (option string) :=
  fun ss g =>
    let value := options !! ss label in
    Ok (value, g, [Radio label options value]).

Definition st_selectbox (label : string) (options : list string) : UI (option string) :=
  fun ss g =>
    let value := options !! ss label in
    Ok (value, g, [Selectbox label options value]).

(** [st.columns(n)] and [st.columns([w1, ...])] *)
Definition st_columns (widths : list nat) : UI unit := emit (Columns widths).

(** *** numpy's calls *)

Definition np_random_normal (loc scale : Q) (size : nat) : UI (list float) :=
  fun _ g => let (xs, g1) := draws (normal_draw loc scale) size g in Ok (xs, g1, []).

Definition np_random_uniform (low high : Q) (size : nat) : UI (list float) :=
  fun _ g => let (xs, g1) := draws (uniform_draw low high) size g in Ok (xs, g1, []).

(** *** plotly express

    [px.bar] and [px.line] refuse a column name that the frame lacks. *)

Definition has_column (df : DataFrame) (name : option string) : bool :=
  match name with
  | Some c => existsb (String.eqb c) (keys (df_columns df))
  | None => true
  end.

Definition px_figure (kind : chart_kind) (df : DataFrame) (x : string)
    (y : option string) (title : string) (labels : dict string)
    (color : option string) : result Figure :=
  if has_column df (Some x) && has_column df y && has_column df color
  then Ok {| fig_kind := kind; fig_data := df; fig_x := x; fig_y := y;
             fig_title := title; fig_labels := labels; fig_color := color |}
  else Raise (ValueError "Value is not the name of a column in data_frame").

Definition px_bar := px_figure Bar.
Definition px_line := px_figure Line.

(** ** The script *)

Record tool := {
  description : string;
  key_features : list string;
  use_cases : list string
}.

Definition sas_tools : dict tool := [
  ("SAS Base",
   {| description := "The core module of SAS, providing extensive data manipulation techniques and sophisticated statistical algorithms.";
      key_features := ["Data Management"; "Statistical Analysis"; "Report Writing"; "Programming Interface"];
      use_cases := ["Data Cleaning"; "Basic Statistics"; "Custom Reports"; "Data Transformation"] |});
  ("SAS Enterprise Guide",
   {| description := "A user-friendly, point-and-click Windows client interface for quick access to SAS analytics.";
      key_features := ["Visual Interface"; "Workflow Designer"; "Built-in Tasks"; "Project Organization"];
      use_cases := ["Business Reports"; "Statistical Analysis"; "Data Exploration"; "Process Automation"] |});
  ("SAS Visual Analytics",
   {| description := "A visual analytics software for creating interactive dashboards, reports, and data visualizations.";
      key_features := ["Interactive Dashboards"; "Mobile Support"; "Data Discovery"; "Smart Visualizations"];
      use_cases := ["Executive Dashboards"; "Self-service Analytics"; "Performance Monitoring"; "Data Storytelling"] |});
  ("SAS Viya",
   {| description := "A cloud-based platform for artificial intelligence, machine learning, analytics, and data management.";
      key_features := ["Cloud Native"; "Open Source Integration"; "Scalable Processing"; "Modern Architecture"];
      use_cases := ["Enterprise AI"; "Cloud Analytics"; "Real-time Decisions"; "Distributed Computing"] |})
].

(** [def f(): body]: what a call of [f] sends is grouped under [Call f]. *)
Definition def {A} (name : string) (body : UI A) : UI A := within (Call name) body.

(** *** Overview *)

Definition benefits : list string := [
  "📊 Comprehensive Statistical Analysis";
  "🎯 Advanced Data Visualization";
  "🤖 Integrated Machine Learning";
  "☁️ Cloud-Based Deployment";
  "🔄 Open Source Interoperability"
].

(** The list [industries] of [show_overview]. *)
Definition overview_industries : list string := [
  "💼 Business Intelligence";
  "⚠️ Risk Management";
  "🌍 Environmental Analytics";
  "📱 Social Media Analytics";
  "🏥 Healthcare Analytics"
].

Definition show_overview : UI unit :=
  def "show_overview" (
    st_header "SAS Data Analytics Platform Overview";;
    st_write "
    SAS (Statistical Analysis System) is a comprehensive data analytics platform that provides
    a wide range of tools for data management, statistical analysis, and business intelligence.
    ";;
    st_columns (replicate 2 1%nat);;
    within (Column 0) (
      st_subheader "Key Benefits";;
      for_each benefits (fun benefit => st_write benefit));;
    within (Column 1) (
      st_subheader "Industry Applications";;
      for_each overview_industries (fun industry => st_write industry))).

(** *** Tool Explorer *)

Definition show_tool_explorer : UI unit :=
  def "show_tool_explorer" (
    st_header "SAS Tools Explorer";;
    selected_tool ← st_selectbox "Select a SAS tool to explore:" (keys sas_tools);
    if py_bool selected_tool then
      tool_info ← lift (getitem sas_tools (py_str selected_tool));
      st_columns [2; 1]%nat;;
      within (Column 0) (
        st_subheader ("About " +:+ py_str selected_tool);;
        st_write (description tool_info);;
        st_subheader "Key Features";;
        for_each (key_features tool_info) (fun feature => st_write ("• " +:+ feature)));;
      within (Column 1) (
        st_subheader "Common Use Cases";;
        for_each (use_cases tool_info) (fun use_case => st_write ("📌 " +:+ use_case)))
    else ret tt).

(** *** Features Comparison *)

Definition features : list string := [
  "Statistical Analysis"; "Data Visualization"; "Machine Learning";
  "Cloud Support"; "Open Source Integration"
].

Definition comparison_data : dict (list bool) := [
  ("SAS Base", [true; false; false; false; false]);
  ("SAS Enterprise Guide", [true; true; false; false; false]);
  ("SAS Visual Analytics", [true; true; false; true; true]);
  ("SAS Viya", [true; true; true; true; true])
].

Definition cell_color (x : cell) : string :=
  if cell_bool x then "background-color: #90EE90" else "background-color: #FFB6C1".

Definition show_features_comparison : UI unit :=
  def "show_features_comparison" (
    st_header "Features Comparison";;
    df_comparison ← lift (pd_DataFrame
                            (map (fun c => (fst c, map CBool (snd c))) comparison_data)
                            (Some (map CStr features)));
    st_dataframe (style_applymap cell_color df_comparison)).

(** *** Industry Applications *)

Record industry := {
  icon : string;
  applications : list string;
  popularity : Z
}.

Definition industries : dict industry := [
  ("Business Intelligence",
   {| icon := "💼";
      applications := ["Data Warehousing"; "ETL Processes"; "Reporting"; "Analytics"];
      popularity := 85 |});
  ("Risk Management",
   {| icon := "⚠️";
      applications := ["Credit Risk"; "Market Risk"; "Operational Risk"; "Compliance"];
      popularity := 75 |});
  ("Environmental Analytics",
   {| icon := "🌍";
      applications := ["Deforestation Monitoring"; "Climate Analysis"; "Resource Management"];
      popularity := 60 |});
  ("Social Media Analytics",
   {| icon := "📱";
      applications := ["Sentiment Analysis"; "Trend Monitoring"; "Engagement Tracking"];
      popularity := 70 |})
].

Definition show_industry_applications : UI unit :=
  def "show_industry_applications" (
    st_header "Industry Applications";;
    industry_data ← lift (pd_DataFrame
                            [("Industry", map CStr (keys industries));
                             ("Popularity", map (fun ind => CInt (popularity ind)) (values industries))]
                            None);
    fig ← lift (px_bar industry_data "Industry" (Some "Popularity")
                  "Industry Adoption of SAS Analytics"
                  [("Popularity", "Adoption Rate (%)")]
                  (Some "Industry"));
    st_plotly_chart fig;;
    for_each (items industries) (fun entry =>
      let industry := fst entry in
      let details := snd entry in
      within (Expander (icon details +:+ " " +:+ industry)) (
        st_write "Common Applications:";;
        for_each (applications details) (fun app => st_write ("• " +:+ app))))).

(** *** Demo Analytics *)

Definition show_demo_analytics : UI unit :=
  def "show_demo_analytics" (
    st_header "Demo Analytics Dashboard";;
    dates ← lift (pd_date_range "2024-01-01" "2024-12-31" "M");
    sales ← np_random_normal 1000 200 (length dates);
    customers ← np_random_normal 500 100 (length dates);
    satisfaction ← np_random_uniform 3.5 5 (length dates);
    data ← lift (pd_DataFrame
                   [("Date", map CDate dates);
                    ("Sales", map CFloat sales);
                    ("Customers", map CFloat customers);
                    ("Satisfaction", map CFloat satisfaction)]
                   None);
    metric_choice ← st_selectbox "Select metric to visualize:"
                      ["Sales"; "Customers"; "Satisfaction"];
    fig ← lift (px_line data "Date" metric_choice
                  (py_str metric_choice +:+ " Trend Analysis") [] None);
    st_plotly_chart fig;;
    st_subheader "Summary Statistics";;
    st_columns (replicate 3 1%nat);;
    within (Column 0) (
      m ← lift (column_reduce series_mean data "Sales");
      st_metric "Average Sales" ("$" +:+ format_float ",.0f" m));;
    within (Column 1) (
      t ← lift (column_reduce series_sum data "Customers");
      st_metric "Total Customers" (format_float ",.0f" t));;
    within (Column 2) (
      m ← lift (column_reduce series_mean data "Satisfaction");
      st_metric "Avg Satisfaction" (format_float ".1f" m +:+ "/5.0"))).

(** *** The dispatcher *)

Definition page_options : list string :=
  ["Overview"; "Tool Explorer"; "Features Comparison"; "Industry Applications";
   "Demo Analytics"].

Definition main : UI unit :=
  def "main" (
    st_title "🔍 SAS Analytics Tools Explorer";;
    st_markdown "---";;
    within Sidebar (st_title "Navigation");;
    page ← within Sidebar (st_radio "Choose a section:" page_options);
    if py_eq page "Overview" then show_overview
    else if py_eq page "Tool Explorer" then show_tool_explorer
    else if py_eq page "Features Comparison" then show_features_comparison
    else if py_eq page "Industry Applications" then show_industry_applications
    else if py_eq page "Demo Analytics" then show_demo_analytics
    else ret tt).

(** One run of the script, top to bottom: one display cycle. *)
Definition script : UI unit :=
  st_set_page_config "SAS Analytics Tools Explorer" "📊" "wide";;
  main.

(** ** Reading a trace *)

(** An element and everything nested in it, in display order. *)
Fixpoint flatten (e : element) : list element :=
  e :: match e with
       | Block _ body => concat (map flatten body)
       | _ => []
       end.

Definition elements (t : list element) : list element := concat (map flatten t).

(** The functions whose calls the trace records, outermost first. *)
Definition calls (t : list element) : list string :=
  omap (fun e => match e with Block (Call f) _ => Some f | _ => None end) (elements t).

Definition texts (t : list element) : list string :=
  omap (fun e => match e with Text s => Some s | _ => None end) (elements t).

Definition charts (t : list element) : list Figure :=
  omap (fun e => match e with PlotlyChart fig => Some fig | _ => None end) (elements t).

Definition tables (t : list element) : list Styler :=
  omap (fun e => match e with Table d => Some d | _ => None end) (elements t).

Definition metrics (t : list element) : list (string * string) :=
  omap (fun e => match e with Metric l v => Some (l, v) | _ => None end) (elements t).

Definition selectbox_options (t : list element) : list (list string) :=
  omap (fun e => match e with Selectbox _ o _ => Some o | _ => None end) (elements t).

Definition expanders (t : list element) : list string :=
  omap (fun e => match e with Block (Expander l) _ => Some l | _ => None end) (elements t).

(** The texts written into column [i]. *)
Definition column_texts (i : nat) (t : list element) : list string :=
  texts (omap (fun e => match e with
                        | Block (Column j) _ => if (i =? j)%nat then Some e else None
                        | _ => None
                        end) (elements t)).

(** The points a figure plots: its x column against its y column. *)
Definition chart_points (fig : Figure) : list (cell * cell) :=
  match df_getitem (fig_data fig) (fig_x fig), fig_y fig with
  | Ok xs, Some y =>
      match df_getitem (fig_data fig) y with
      | Ok ys => zip xs ys
      | Raise _ => []
      end
  | _, _ => []
  end.

(** The page configurations a trace holds. *)
Definition page_configs (t : list element) : list element :=
  omap (fun e => match e with PageConfig _ _ _ => Some e | _ => None end) (elements t).

(** What was sent to the sidebar, block by block. *)
Definition sidebar (t : list element) : list element :=
  concat (omap (fun e => match e with Block Sidebar body => Some body | _ => None end)
               (elements t)).

(** Each expander's label with the texts written in it. *)
Definition expander_texts (t : list element) : list (string * list string) :=
  omap (fun e => match e with
                 | Block (Expander l) body => Some (l, texts body)
                 | _ => None
                 end) (elements t).

(** What a run sent to the page; nothing when it raised. *)
Definition trace_of {A} (r : result (A * rng * list element)) : list element :=
  match r with
  | Ok (_, _, t) => t
  | Raise _ => []
  end.

(** ** The intended correspondences, for the statements below *)

(** Page identifier, and the renderer that goes with it. *)
Definition renderers : dict (string * UI unit) := [
  ("Overview", ("show_overview", show_overview));
  ("Tool Explorer", ("show_tool_explorer", show_tool_explorer));
  ("Features Comparison", ("show_features_comparison", show_features_comparison));
  ("Industry Applications", ("show_industry_applications", show_industry_applications));
  ("Demo Analytics", ("show_demo_analytics", show_demo_analytics))
].

(** What [main] sends before it dispatches. *)
Definition main_chrome (page : string) : list element := [
  Title "🔍 SAS Analytics Tools Explorer";
  Markdown "---";
  Block Sidebar [Title "Navigation"];
  Block Sidebar [Radio "Choose a section:" page_options (Some page)]
].

Definition bullet (s : string) : string := "• " +:+ s.
Definition pin (s : string) : string := "📌 " +:+ s.

(** The Tool Explorer page of one entry of [sas_tools]. *)
Definition tool_page (name : string) (info : tool) : list element := [
  Header "SAS Tools Explorer";
  Selectbox "Select a SAS tool to explore:" (keys sas_tools) (Some name);
  Columns [2; 1]%nat;
  Block (Column 0)
    ([Subheader ("About " +:+ name); Text (description info); Subheader "Key Features"]
     ++ map (fun f => Text (bullet f)) (key_features info));
  Block (Column 1)
    (Subheader "Common Use Cases" :: map (fun u => Text (pin u)) (use_cases info))
].

(** The month ends of 2024. *)
Definition month_ends_2024 : list date := [
  Date 2024 1 31; Date 2024 2 29; Date 2024 3 31; Date 2024 4 30;
  Date 2024 5 31; Date 2024 6 30; Date 2024 7 31; Date 2024 8 31;
  Date 2024 9 30; Date 2024 10 31; Date 2024 11 30; Date 2024 12 31
].

(** The frame [data] of [show_demo_analytics], given its sampled columns. *)
Definition demo_data (sales customers satisfaction : list float) : DataFrame :=
  {| df_index := range_index 12;
     df_columns := [("Date", map CDate month_ends_2024);
                    ("Sales", map CFloat sales);
                    ("Customers", map CFloat customers);
                    ("Satisfaction", map CFloat satisfaction)] |}.

(** The Demo Analytics page over that frame, for the metric the select box
    returned. *)
Definition demo_page (sales customers satisfaction : list float)
    (metric_choice : option string) : list element := [
  Header "Demo Analytics Dashboard";
  Selectbox "Select metric to visualize:" ["Sales"; "Customers"; "Satisfaction"]
    metric_choice;
  PlotlyChart {| fig_kind := Line;
                 fig_data := demo_data sales customers satisfaction;
                 fig_x := "Date";
                 fig_y := metric_choice;
                 fig_title := py_str metric_choice +:+ " Trend Analysis";
                 fig_labels := [];
                 fig_color := None |};
  Subheader "Summary Statistics";
  Columns [1; 1; 1]%nat;
  Block (Column 0)
    [Metric "Average Sales" ("$" +:+ format_float ",.0f" (series_mean sales))];
  Block (Column 1)
    [Metric "Total Customers" (format_float ",.0f" (series_sum customers))];
  Block (Column 2)
    [Metric "Avg Satisfaction"
       (format_float ".1f" (series_mean satisfaction) +:+ "/5.0")]
].

(** The label an expander of the Industry Applications page carries. *)
Definition industry_label (entry : string * industry) : string :=
  icon (snd entry) +:+ " " +:+ fst entry.

(** The name in a label ["<icon> <name>"]: what follows the first space. *)
Fixpoint label_name (label : string) : string :=
  match label with
  | EmptyString => EmptyString
  | String c rest => if Ascii.eqb c " " then rest else label_name rest
  end.

End Dashboard.

(** ** A generator that replays recorded samples

    An implementation of the interface over the rationals: the generator's
    state is the list of samples it will return next (when the list is
    exhausted it returns the distribution's location).  It serves to exhibit
    concrete runs. *)

Definition replay_draw (default : Q) (tape : list Q) : Q * list Q :=
  match tape with
  | x :: tape' => (x, tape')
  | [] => (default, [])
  end.

Definition Qsum (xs : list Q) : Q := foldr Qplus 0%Q xs.

Definition Qmean (xs : list Q) : Q := (Qsum xs / inject_Z (Z.of_nat (length xs)))%Q.

(** Fixed-point printing for the specs [".df"] and [",.df"]: the integer
    nearest to [x * 10^d], ties to even, with the point [d] digits from the
    right, and a comma every three digits of the whole part when the spec
    asks for it. *)
Definition spec_precision (spec : string) : Z :=
  match String.index 0 "." spec with
  | Some i =>
      match parse_digits (String.substring (S i) 1 spec) with
      | Some d => d
      | None => 6
      end
  | None => 6
  end.

Definition spec_grouping (spec : string) : bool :=
  match String.index 0 "," spec with
  | Some _ => true
  | None => false
  end.

Definition round_half_even (x : Q) : Z :=
  let lo := Qfloor x in
  match Qcompare (x - inject_Z lo) (1 # 2) with
  | Lt => lo
  | Gt => lo + 1
  | Eq => if Z.even lo then lo else lo + 1
  end.

Definition pad_left (width : nat) (s : string) : string :=
  String.concat "" (replicate (width - String.length s) "0") +:+ s.

(** Commas into a digit string given least significant digit first; [n]
    counts the digits since the last comma. *)
Fixpoint group_digits (n : nat) (digits : list ascii) : list ascii :=
  match digits with
  | [] => []
  | c :: rest =>
      match n with
      | 3%nat => ","%char :: c :: group_digits 1 rest
      | _ => c :: group_digits (S n) rest
      end
  end.

Definition group_thousands (s : string) : string :=
  string_of_list_ascii (rev (group_digits 0 (rev (list_ascii_of_string s)))).

Definition format_fixed (spec : string) (x : Q) : string :=
  let d := spec_precision spec in
  let scaled := round_half_even (x * inject_Z (10 ^ d)) in
  let whole := pretty (Z.abs scaled / 10 ^ d) in
  let frac := pad_left (Z.to_nat d) (pretty (Z.abs scaled mod 10 ^ d)) in
  (if scaled <? 0 then "-" else "")
  +:+ (if spec_grouping spec then group_thousands whole else whole)
  +:+ (if d =? 0 then "" else "." +:+ frac).

#[export] Instance replay : Numeric := {|
  float := Q;
  rng := list Q;
  normal_draw loc scale := replay_draw loc;
  uniform_draw low high := replay_draw low;
  series_mean := Qmean;
  series_sum := Qsum;
  format_float := format_fixed
|}.

(** A session and a tape to run the script on: the Demo Analytics page is
    selected, and the third option of every select box. *)
Definition example_session : session :=
  fun label => if String.eqb label "Choose a section:" then 4%nat else 2%nat.


Definition example_tape : list Q :=
  map (fun i => inject_Z (Z.of_nat i)) (seq 1 72).

(** * Properties of the script *)

Section Properties.
Context {N : Numeric}.

(** Unfolds one step of the monad and of Streamlit's calls. *)
Ltac run_ui :=
  unfold def, within, mbind, ui_bind, bind, lift, ret, emit,
    st_radio, st_selectbox, st_title, st_markdown, st_header, st_subheader,
    st_write, st_columns, st_dataframe, st_plotly_chart, st_metric,
    np_random_normal, np_random_uniform.

(** ** The random draws *)

Lemma draws_length step n g : length (draws step n g).1 = n.
Proof.
  revert g; induction n as [|n IH]; intros g; simpl; [done|].
  destruct (step g) as [x g1]. specialize (IH g1).
  destruct (draws step n g1) as [xs g2]. simpl in *. by rewrite IH.
Qed.

Lemma draws_eq_length step n g xs g' : draws step n g = (xs, g') → length xs = n.
Proof. intros E. pose proof (draws_length step n g) as H. by rewrite E in H. Qed.

Lemma as_floats_map xs : as_floats (map CFloat xs) = Some xs.
Proof. induction xs as [|x xs IH]; simpl; [done|]. by rewrite IH. Qed.

Lemma date_range_2024 :
  pd_date_range "2024-01-01" "2024-12-31" "M" = Ok month_ends_2024.
Proof. vm_compute. reflexivity. Qed.

(** The model of [date_range] yields month ends within the range only. *)
Lemma month_end_range_sound a b d :
  d ∈ month_end_range a b →
  date_leb a d = true ∧ date_leb d b = true
  ∧ day d = days_in_month (year d) (month d).
Proof.
  unfold month_end_range. intros H.
  apply list_elem_of_filter in H as [Hin Hd].
  apply andb_prop in Hin as [Ha Hb]. do 2 (split; [done|]).
  apply list_elem_of_fmap in Hd as (i & -> & _). reflexivity.
Qed.

(** ** What each renderer does, for every session and generator state *)

Lemma show_overview_run ss g :
  ∃ shown, show_overview ss g = Ok (tt, g, [Block (Call "show_overview") shown])
           ∧ calls shown = []
           ∧ column_texts 0 shown = benefits
           ∧ column_texts 1 shown = overview_industries.
Proof. eexists. split; [reflexivity|]. repeat split. Qed.

Lemma show_tool_explorer_run ss g name :
  keys sas_tools !! ss "Select a SAS tool to explore:" = Some name →
  ∃ info, getitem sas_tools name = Ok info
          ∧ show_tool_explorer ss g
            = Ok (tt, g, [Block (Call "show_tool_explorer") (tool_page name info)])
          ∧ calls (tool_page name info) = []
          ∧ selectbox_options (tool_page name info) = [keys sas_tools].
Proof.
  intros H. unfold show_tool_explorer. run_ui.
  destruct (ss "Select a SAS tool to explore:") as [|[|[|[|n]]]] eqn:E;
    simpl in H; try discriminate; injection H as <-;
    eexists; (split; [reflexivity|]); repeat split.
Qed.

Lemma show_tool_explorer_unselected ss g :
  keys sas_tools !! ss "Select a SAS tool to explore:" = None →
  show_tool_explorer ss g
  = Ok (tt, g, [Block (Call "show_tool_explorer")
                  [Header "SAS Tools Explorer";
                   Selectbox "Select a SAS tool to explore:" (keys sas_tools) None]]).
Proof.
  intros H. unfold show_tool_explorer. run_ui.
  destruct (ss "Select a SAS tool to explore:") as [|[|[|[|n]]]] eqn:E;
    simpl in H; try discriminate; reflexivity.
Qed.

Lemma show_features_comparison_run ss g :
  ∃ df, pd_DataFrame (map (fun c => (c.1, map CBool c.2)) comparison_data)
                     (Some (map CStr features)) = Ok df
        ∧ show_features_comparison ss g
          = Ok (tt, g, [Block (Call "show_features_comparison")
                          [Header "Features Comparison";
                           Table (style_applymap cell_color df)]]).
Proof. eexists. split; reflexivity. Qed.

Lemma show_industry_applications_run ss g :
  ∃ shown fig,
    show_industry_applications ss g
    = Ok (tt, g, [Block (Call "show_industry_applications") shown])
    ∧ calls shown = []
    ∧ charts shown = [fig]
    ∧ fig_kind fig = Bar
    ∧ chart_points fig = map (fun e => (CStr e.1, CInt (popularity e.2))) industries
    ∧ expanders shown = map industry_label industries.
Proof. do 2 eexists. split; [reflexivity|]. repeat split. Qed.

Lemma show_demo_analytics_run ss g sales g1 customers g2 satisfaction g3 :
  draws (normal_draw 1000 200) 12 g = (sales, g1) →
  draws (normal_draw 500 100) 12 g1 = (customers, g2) →
  draws (uniform_draw 3.5 5) 12 g2 = (satisfaction, g3) →
  show_demo_analytics ss g
  = Ok (tt, g3,
        [Block (Call "show_demo_analytics")
           (demo_page sales customers satisfaction
              (["Sales"; "Customers"; "Satisfaction"]
                 !! ss "Select metric to visualize:"))]).
Proof.
  intros E1 E2 E3.
  pose proof (draws_eq_length _ _ _ _ _ E1) as L1.
  pose proof (draws_eq_length _ _ _ _ _ E2) as L2.
  pose proof (draws_eq_length _ _ _ _ _ E3) as L3.
  unfold show_demo_analytics. run_ui. rewrite date_range_2024.
  cbn -[draws String.append]. rewrite E1, E2, E3.
  unfold column_reduce, df_getitem.
  cbn -[String.append]. rewrite !length_map, L1, L2, L3.
  cbn -[String.append]. rewrite !as_floats_map.
  destruct (ss "Select metric to visualize:") as [|[|[|n]]]; reflexivity.
Qed.

Lemma demo_page_calls sales customers satisfaction choice :
  calls (demo_page sales customers satisfaction choice) = [].
Proof. reflexivity. Qed.

(** ** The dispatcher *)

Lemma main_run ss g page name renderer :
  page_options !! ss "Choose a section:" = Some page →
  getitem renderers page = Ok (name, renderer) →
  main ss g =
    match renderer ss g with
    | Ok (a, g', t) => Ok (a, g', [Block (Call "main") (main_chrome page ++ t)])
    | Raise e => Raise e
    end.
Proof.
  intros Hpage Hr. unfold main. run_ui.
  destruct (ss "Choose a section:") as [|[|[|[|[|n]]]]] eqn:E; simpl in Hpage;
    try discriminate; injection Hpage as <-; injection Hr as <- <-.
  all: cbn -[show_overview show_tool_explorer show_features_comparison
             show_industry_applications show_demo_analytics].
  all: match goal with
       | |- _ = match ?r with _ => _ end => destruct r as [[[[] g'] t]|e]
       end; reflexivity.
Qed.

(** When the radio returns nothing, the chain of comparisons has no branch
    to take and [main] calls no renderer. *)
Lemma main_unselected ss g :
  page_options !! ss "Choose a section:" = None →
  calls (trace_of (main ss g)) = ["main"].
Proof.
  intros H. unfold main. run_ui. rewrite H. reflexivity.
Qed.

(** Every renderer completes, and calls no function of the script. *)
Lemma renderer_completes ss g page name renderer :
  (page, (name, renderer)) ∈ renderers →
  ∃ g' shown, renderer ss g = Ok (tt, g', [Block (Call name) shown])
              ∧ calls shown = [].
Proof.
  intros H. unfold renderers in H.
  repeat (apply elem_of_cons in H as [[= -> -> ->]|H]);
    [| | | | |by apply elem_of_nil in H].
  - destruct (show_overview_run ss g) as (shown & -> & Hc & _). eauto.
  - destruct (keys sas_tools !! ss "Select a SAS tool to explore:") as [tool|] eqn:E.
    + destruct (show_tool_explorer_run ss g tool E) as (info & _ & -> & Hc & _). eauto.
    + rewrite (show_tool_explorer_unselected ss g E). eauto.
  - destruct (show_features_comparison_run ss g) as (df & _ & ->). eauto.
  - destruct (show_industry_applications_run ss g) as (shown & fig & -> & Hc & _).
    eauto.
  - destruct (draws (normal_draw 1000 200) 12 g) as [sales g1] eqn:E1.
    destruct (draws (normal_draw 500 100) 12 g1) as [customers g2] eqn:E2.
    destruct (draws (uniform_draw 3.5 5) 12 g2) as [satisfaction g3] eqn:E3.
    rewrite (show_demo_analytics_run ss g _ _ _ _ _ _ E1 E2 E3).
    do 2 eexists. split; [reflexivity|]. apply demo_page_calls.
Qed.

Lemma getitem_elem_of {V} (d : dict V) k v : getitem d k = Ok v → (k, v) ∈ d.
Proof.
  induction d as [|[k' v'] d IH]; simpl; [discriminate|].
  destruct (String.eqb_spec k' k) as [->|_].
  - intros [= ->]. apply elem_of_cons. by left.
  - intros H. apply elem_of_cons. right. by apply IH.
Qed.

Lemma calls_app t1 t2 : calls (t1 ++ t2) = calls t1 ++ calls t2.
Proof. unfold calls, elements. by rewrite map_app, concat_app, omap_app. Qed.

Lemma calls_call_block f body t :
  calls (Block (Call f) body :: t) = f :: calls body ++ calls t.
Proof.
  unfold calls, elements. cbn [map concat flatten].
  rewrite omap_app. reflexivity.
Qed.

Lemma selectbox_options_block c body :
  selectbox_options [Block c body] = selectbox_options body.
Proof.
  unfold selectbox_options, elements. cbn [map concat flatten].
  rewrite omap_app, app_nil_r. reflexivity.
Qed.

Lemma calls_main_block chrome shown name :
  calls chrome = [] → calls shown = [] →
  calls [Block (Call "main") (chrome ++ [Block (Call name) shown])] = ["main"; name].
Proof.
  intros Hc Hs.
  rewrite calls_call_block, calls_app, calls_call_block, Hc, Hs. reflexivity.
Qed.

Lemma script_run ss g :
  script ss g =
    match main ss g with
    | Ok (a, g', t) =>
        Ok (a, g', PageConfig "SAS Analytics Tools Explorer" "📊" "wide" :: t)
    | Raise e => Raise e
    end.
Proof.
  unfold script, st_set_page_config, mbind, ui_bind, bind, emit.
  destruct (main ss g) as [[[[] g'] t]|e]; reflexivity.
Qed.

(** ** C1 *)

(** C1. The five page identifiers are exactly the keys of the renderer
    table, in order.  Whichever of them the radio returns, [main] completes,
    and its run is the fixed chrome followed by one call of the renderer that
    goes with that identifier: the calls that [main], and one run of the
    whole script, record are [main] and that renderer, once, and nothing
    else. *)
Theorem main_invokes_the_selected_renderer_once (ss : session) (g : rng) :
  (ss "Choose a section:" < length page_options)%nat →
  page_options = ["Overview"; "Tool Explorer"; "Features Comparison";
                  "Industry Applications"; "Demo Analytics"]
  ∧ keys renderers = page_options
  ∧ map (fun r => r.2.1) renderers
    = ["show_overview"; "show_tool_explorer"; "show_features_comparison";
       "show_industry_applications"; "show_demo_analytics"]
  ∧ ∃ page name renderer g' shown,
      page_options !! ss "Choose a section:" = Some page
      ∧ getitem renderers page = Ok (name, renderer)
      ∧ renderer ss g = Ok (tt, g', [Block (Call name) shown])
      ∧ main ss g
        = Ok (tt, g', [Block (Call "main")
                         (main_chrome page ++ [Block (Call name) shown])])
      ∧ calls (trace_of (main ss g)) = ["main"; name]
      ∧ calls (trace_of (script ss g)) = ["main"; name].
Proof.
  intros Hlt. do 3 (split; [reflexivity|]).
  apply lookup_lt_is_Some_2 in Hlt as [page Hpage].
  assert (∃ name renderer, getitem renderers page = Ok (name, renderer))
    as (name & renderer & Hr).
  { destruct (ss "Choose a section:") as [|[|[|[|[|n]]]]]; simpl in Hpage;
      try discriminate; injection Hpage as <-; do 2 eexists; reflexivity. }
  destruct (renderer_completes ss g page name renderer) as (g' & shown & Hrun & Hc).
  { by apply getitem_elem_of. }
  assert (main ss g
          = Ok (tt, g', [Block (Call "main")
                           (main_chrome page ++ [Block (Call name) shown])])) as Hmain.
  { rewrite (main_run ss g page name renderer Hpage Hr). by rewrite Hrun. }
  assert (calls [Block (Call "main") (main_chrome page ++ [Block (Call name) shown])]
          = ["main"; name]) as Hcalls by (by apply calls_main_block).
  exists page, name, renderer, g', shown. repeat split; try done.
  - by rewrite Hmain.
  - rewrite script_run, Hmain. exact Hcalls.
Qed.

(** ** C2 *)

(** C2. When the select box returns a key of [sas_tools], the Tool Explorer
    completes and its page is the page of that key's entry: the texts it
    writes are that tool's description, then its features in order, then its
    use cases in order, and no description, feature or use case of another
    tool is among them. *)
Theorem tool_explorer_shows_selected_tool_only (ss : session) (g : rng)
    (name : string) :
  keys sas_tools !! ss "Select a SAS tool to explore:" = Some name →
  ∃ info shown,
    getitem sas_tools name = Ok info
    ∧ show_tool_explorer ss g = Ok (tt, g, [Block (Call "show_tool_explorer") shown])
    ∧ shown = tool_page name info
    ∧ texts shown
      = description info
        :: (map bullet (key_features info) ++ map pin (use_cases info))
    ∧ Forall (fun other =>
                other.1 ≠ name →
                (description other.2 ∉ texts shown)
                ∧ Forall (fun f => bullet f ∉ texts shown) (key_features other.2)
                ∧ Forall (fun u => pin u ∉ texts shown) (use_cases other.2))
             sas_tools.
Proof.
  intros Hsel.
  destruct (show_tool_explorer_run ss g name Hsel) as (info & Hinfo & Hrun & _ & _).
  exists info, (tool_page name info). do 3 (split; [done|]).
  clear Hrun.
  destruct (ss "Select a SAS tool to explore:") as [|[|[|[|n]]]];
    simpl in Hsel; try discriminate; injection Hsel as <-;
    injection Hinfo as <-; (split; [reflexivity|]).
  all: unfold sas_tools; repeat apply Forall_cons_2; try apply Forall_nil_2.
  all: cbn [fst snd description key_features use_cases]; intros Hne;
    try (by destruct Hne).
  all: split; [|split]; repeat apply Forall_cons_2; try apply Forall_nil_2.
  all: compute_done.
Qed.

(** ** C7 *)

(** C7. When the select box returns a key of [sas_tools], the Tool Explorer
    writes into its first column a description that is not the empty string
    and at least one feature, and into its second column at least one use
    case: they are the selected entry's, none of them empty. *)
Theorem tool_explorer_output_nonempty (ss : session) (g : rng) (name : string) :
  keys sas_tools !! ss "Select a SAS tool to explore:" = Some name →
  ∃ info shown shown_description shown_features shown_use_cases,
    getitem sas_tools name = Ok info
    ∧ show_tool_explorer ss g = Ok (tt, g, [Block (Call "show_tool_explorer") shown])
    ∧ column_texts 0 shown = shown_description :: shown_features
    ∧ column_texts 1 shown = shown_use_cases
    ∧ shown_description = description info
    ∧ shown_features = map bullet (key_features info)
    ∧ shown_use_cases = map pin (use_cases info)
    ∧ (0 < String.length shown_description)%nat
    ∧ (0 < length shown_features)%nat
    ∧ (0 < length shown_use_cases)%nat.
Proof.
  intros Hsel.
  destruct (show_tool_explorer_run ss g name Hsel) as (info & Hinfo & Hrun & _ & _).
  exists info, (tool_page name info), (description info),
    (map bullet (key_features info)), (map pin (use_cases info)).
  do 2 (split; [done|]).
  clear Hrun.
  destruct (ss "Select a SAS tool to explore:") as [|[|[|[|n]]]];
    simpl in Hsel; try discriminate; injection Hsel as <-;
    injection Hinfo as <-.
  all: do 5 (split; [reflexivity|]).
  all: cbn [description key_features use_cases map length]; repeat split; try lia.
  all: apply Nat.ltb_lt; reflexivity.
Qed.

(** ** C3 *)

Lemma show_demo_analytics_total ss g :
  ∃ sales g1 customers g2 satisfaction g3,
    draws (normal_draw 1000 200) 12 g = (sales, g1)
    ∧ draws (normal_draw 500 100) 12 g1 = (customers, g2)
    ∧ draws (uniform_draw 3.5 5) 12 g2 = (satisfaction, g3)
    ∧ show_demo_analytics ss g
      = Ok (tt, g3,
            [Block (Call "show_demo_analytics")
               (demo_page sales customers satisfaction
                  (["Sales"; "Customers"; "Satisfaction"]
                     !! ss "Select metric to visualize:"))]).
Proof.
  destruct (draws (normal_draw 1000 200) 12 g) as [sales g1] eqn:E1.
  destruct (draws (normal_draw 500 100) 12 g1) as [customers g2] eqn:E2.
  destruct (draws (uniform_draw 3.5 5) 12 g2) as [satisfaction g3] eqn:E3.
  exists sales, g1, customers, g2, satisfaction, g3.
  do 3 (split; [done|]).
  exact (show_demo_analytics_run ss g _ _ _ _ _ _ E1 E2 E3).
Qed.

Lemma month_ends_2024_spec :
  map month month_ends_2024 = map Z.of_nat (seq 1 12)
  ∧ Forall (fun d => year d = 2024 ∧ day d = days_in_month 2024 (month d))
           month_ends_2024.
Proof.
  split; [reflexivity|].
  unfold month_ends_2024. repeat apply Forall_cons_2; try apply Forall_nil_2.
  all: split; reflexivity.
Qed.

(** C3. For every session and every state of the generator, the Demo
    Analytics renderer completes and the frame it charts has 12 rows; its
    [Date] column is the twelve month ends of 2024, from 2024-01-31 to
    2024-12-31, one per month; and each of [Sales], [Customers] and
    [Satisfaction] is a column of 12 floats. *)
Theorem demo_frame_has_twelve_month_end_rows (ss : session) (g : rng) :
  ∃ g' shown fig,
    show_demo_analytics ss g = Ok (tt, g', [Block (Call "show_demo_analytics") shown])
    ∧ charts shown = [fig]
    ∧ n_rows (fig_data fig) = 12%nat
    ∧ keys (df_columns (fig_data fig)) = ["Date"; "Sales"; "Customers"; "Satisfaction"]
    ∧ df_getitem (fig_data fig) "Date" = Ok (map CDate month_ends_2024)
    ∧ length month_ends_2024 = 12%nat
    ∧ head month_ends_2024 = Some (Date 2024 1 31)
    ∧ last month_ends_2024 = Some (Date 2024 12 31)
    ∧ map month month_ends_2024 = map Z.of_nat (seq 1 12)
    ∧ Forall (fun d => year d = 2024 ∧ day d = days_in_month 2024 (month d))
             month_ends_2024
    ∧ Forall (fun name =>
                ∃ xs, df_getitem (fig_data fig) name = Ok (map CFloat xs)
                      ∧ length xs = 12%nat)
             ["Sales"; "Customers"; "Satisfaction"].
Proof.
  destruct (show_demo_analytics_total ss g)
    as (sales & g1 & customers & g2 & satisfaction & g3 & E1 & E2 & E3 & Hrun).
  destruct month_ends_2024_spec as [Hmonths Hends].
  eexists g3, _, _. split; [exact Hrun|].
  split; [reflexivity|].
  do 6 (split; [reflexivity|]).
  do 2 (split; [assumption|]).
  repeat apply Forall_cons_2; try apply Forall_nil_2.
  - exists sales. split; [reflexivity|]. eapply draws_eq_length, E1.
  - exists customers. split; [reflexivity|]. eapply draws_eq_length, E2.
  - exists satisfaction. split; [reflexivity|]. eapply draws_eq_length, E3.
Qed.

(** ** C4 *)

(** C4. [comparison_data] has four entries and [features] five names; each
    entry is a list of as many booleans as there are feature names.  So the
    frame is built without error, and the table the renderer shows has the
    five features as rows, the four tools as columns and a boolean in every
    cell. *)
Theorem comparison_matrix_is_four_by_five :
  length comparison_data = 4%nat
  ∧ length features = 5%nat
  ∧ Forall (fun row => length row.2 = 5%nat ∧ length row.2 = length features)
           comparison_data
  ∧ ∀ (ss : session) (g : rng),
      ∃ df,
        show_features_comparison ss g
        = Ok (tt, g, [Block (Call "show_features_comparison")
                        [Header "Features Comparison";
                         Table (style_applymap cell_color df)]])
        ∧ n_rows df = 5%nat
        ∧ n_columns df = 4%nat
        ∧ df_index df = map CStr features
        ∧ df_columns df = map (fun c => (c.1, map CBool c.2)) comparison_data.
Proof.
  do 2 (split; [reflexivity|]). split.
  - unfold comparison_data. repeat apply Forall_cons_2; try apply Forall_nil_2.
    all: split; reflexivity.
  - intros ss g.
    destruct (show_features_comparison_run ss g) as (df & Hdf & Hrun).
    exists df. split; [exact Hrun|].
    injection Hdf as <-. repeat split.
Qed.

(** ** C5 *)

(** C5. The Industry Applications renderer completes and shows one bar
    chart, whose points are the four (industry, popularity) pairs of
    [industries] in order; every popularity lies between 0 and 100. *)
Theorem industry_chart_points_in_range (ss : session) (g : rng) :
  ∃ shown fig,
    show_industry_applications ss g
    = Ok (tt, g, [Block (Call "show_industry_applications") shown])
    ∧ charts shown = [fig]
    ∧ fig_kind fig = Bar
    ∧ chart_points fig
      = [(CStr "Business Intelligence", CInt 85);
         (CStr "Risk Management", CInt 75);
         (CStr "Environmental Analytics", CInt 60);
         (CStr "Social Media Analytics", CInt 70)]
    ∧ length (chart_points fig) = 4%nat
    ∧ chart_points fig = map (fun e => (CStr e.1, CInt (popularity e.2))) industries
    ∧ Forall (fun e => 0 ≤ popularity e.2 ≤ 100) industries.
Proof.
  destruct (show_industry_applications_run ss g)
    as (shown & fig & Hrun & _ & Hcharts & Hkind & Hpoints & _).
  exists shown, fig. do 3 (split; [assumption|]).
  rewrite Hpoints. do 3 (split; [reflexivity|]).
  unfold industries. repeat apply Forall_cons_2; try apply Forall_nil_2.
  all: cbn [snd popularity]; lia.
Qed.

(** ** C9 *)

(** C9. The columns of the comparison matrix and the keys of [sas_tools]
    are the same four names, as sets and in the same order, without
    repetition; the options of the Tool Explorer's select box are the column
    names of the table the Features Comparison shows. *)
Theorem comparison_columns_are_the_tools :
  list_to_set (keys comparison_data) =@{gset string} list_to_set (keys sas_tools)
  ∧ (∀ name, name ∈ keys comparison_data ↔ name ∈ keys sas_tools)
  ∧ keys comparison_data = keys sas_tools
  ∧ NoDup (keys sas_tools)
  ∧ length (keys sas_tools) = 4%nat
  ∧ ∀ (ss ss' : session) (g g' : rng),
      ∃ styled,
        tables (trace_of (show_features_comparison ss g)) = [styled]
        ∧ selectbox_options (trace_of (show_tool_explorer ss' g'))
          = [keys (df_columns (styled_frame styled))].
Proof.
  assert (keys comparison_data = keys sas_tools) as Hkeys by reflexivity.
  split; [by rewrite Hkeys|].
  split; [intros name; by rewrite Hkeys|].
  split; [exact Hkeys|].
  split; [apply NoDup_ListNoDup; repeat constructor; compute_done|].
  split; [reflexivity|].
  intros ss ss' g g'.
  destruct (show_features_comparison_run ss g) as (df & Hdf & ->).
  injection Hdf as <-. eexists. split; [reflexivity|].
  destruct (keys sas_tools !! ss' "Select a SAS tool to explore:") as [tool|] eqn:E.
  - destruct (show_tool_explorer_run ss' g' tool E) as (info & _ & -> & _ & Hopts).
    unfold trace_of. rewrite selectbox_options_block, Hopts. reflexivity.
  - rewrite (show_tool_explorer_unselected ss' g' E). reflexivity.
Qed.

(** ** C10 *)

Lemma list_to_set_snoc_strict (l : list string) (x : string) :
  x ∉ l → list_to_set l ⊂@{gset string} list_to_set (l ++ [x]).
Proof.
  intros Hx. split.
  - intros y Hy. apply elem_of_list_to_set, elem_of_app. left.
    by apply elem_of_list_to_set in Hy.
  - intros Hsub. apply Hx.
    apply (elem_of_list_to_set (C := gset string)), Hsub, elem_of_list_to_set.
    apply elem_of_app. right. by apply list_elem_of_singleton.
Qed.

(** C10. The Overview lists five industries and the Industry Applications
    page has four.  The four labels of that page's expanders (icon, space,
    name) are the first four lines of the Overview's list, and the four names
    are the names in those lines: both are strict subsets of the Overview's.
    The fifth line, Healthcare Analytics, is written by the Overview only:
    [industries] has no such key, and neither an expander nor a point of the
    chart carries it. *)
Theorem overview_lists_one_industry_more :
  length overview_industries = 5%nat
  ∧ length industries = 4%nat
  ∧ list_to_set (map industry_label industries)
    ⊂@{gset string} list_to_set overview_industries
  ∧ list_to_set (keys industries)
    ⊂@{gset string} list_to_set (map label_name overview_industries)
  ∧ overview_industries
    = map industry_label industries ++ ["🏥 Healthcare Analytics"]
  ∧ map label_name overview_industries
    = keys industries ++ ["Healthcare Analytics"]
  ∧ getitem industries "Healthcare Analytics"
    = Raise (KeyError "Healthcare Analytics")
  ∧ ∀ (ss : session) (g : rng),
      column_texts 1 (trace_of (show_overview ss g)) = overview_industries
      ∧ ∃ shown fig,
          show_industry_applications ss g
          = Ok (tt, g, [Block (Call "show_industry_applications") shown])
          ∧ expanders shown = map industry_label industries
          ∧ charts shown = [fig]
          ∧ (chart_points fig).*1 = map CStr (keys industries)
          ∧ ("🏥 Healthcare Analytics" ∉ expanders shown)
          ∧ (CStr "Healthcare Analytics" ∉ (chart_points fig).*1).
Proof.
  assert (overview_industries
          = map industry_label industries ++ ["🏥 Healthcare Analytics"]) as Hlabels
    by reflexivity.
  assert (map label_name overview_industries
          = keys industries ++ ["Healthcare Analytics"]) as Hnames
    by reflexivity.
  assert ("🏥 Healthcare Analytics" ∉ map industry_label industries) as Hfresh
    by compute_done.
  assert ("Healthcare Analytics" ∉ keys industries) as Hfresh' by compute_done.
  do 2 (split; [reflexivity|]).
  split.
  { rewrite Hlabels. by apply list_to_set_snoc_strict. }
  split.
  { rewrite Hnames. by apply list_to_set_snoc_strict. }
  do 3 (split; [reflexivity|]).
  intros ss g. split.
  { reflexivity. }
  destruct (show_industry_applications_run ss g)
    as (shown & fig & Hrun & _ & Hcharts & _ & Hpoints & Hexp).
  exists shown, fig. split; [exact Hrun|]. split; [exact Hexp|].
  split; [exact Hcharts|].
  rewrite Hpoints, Hexp. split; [reflexivity|]. split; [exact Hfresh|].
  intros Hin. apply Hfresh'.
  change ((map (λ e : string * industry, (CStr e.1, CInt (popularity e.2))) industries).*1)
    with (map CStr (keys industries)) in Hin.
  apply list_elem_of_fmap in Hin as (k & [= ->] & Hk). exact Hk.
Qed.

End Properties.

(** ** C6 *)

(** The replaying generator returns the head of its tape, block by block. *)
Lemma draws_replay (default : Q) (n : nat) (xs rest : list Q) :
  length xs = n →
  draws (N := replay) (replay_draw default) n (xs ++ rest) = (xs, rest).
Proof.
  revert xs. induction n as [|n IH]; intros [|x xs] Hlen; try discriminate.
  - reflexivity.
  - simpl in Hlen. injection Hlen as Hlen. simpl. by rewrite (IH xs Hlen).
Qed.

(** C6. The Demo Analytics renderer takes from the generator, in this
    order, 12 normal draws with location 1000 and scale 200 (the [Sales]
    column), 12 normal draws with location 500 and scale 100 ([Customers])
    and 12 uniform draws on [3.5, 5) ([Satisfaction]): each column has its
    own draws.  Its three metrics are, in order, the mean of [Sales] printed
    with [,.0f] after a dollar sign, the sum of [Customers] printed with
    [,.0f], and the mean of [Satisfaction] printed with [.1f] before [/5.0].
    And no column constrains another: any three lists of 12 samples are the
    three columns of a run, that of the generator that replays them. *)
Theorem demo_series_and_summary_statistics :
  (∀ (N : Numeric) (ss : session) (g : rng),
     ∃ sales g1 customers g2 satisfaction g3 shown fig,
       draws (normal_draw 1000 200) 12 g = (sales, g1)
       ∧ draws (normal_draw 500 100) 12 g1 = (customers, g2)
       ∧ draws (uniform_draw 3.5 5) 12 g2 = (satisfaction, g3)
       ∧ show_demo_analytics ss g
         = Ok (tt, g3, [Block (Call "show_demo_analytics") shown])
       ∧ charts shown = [fig]
       ∧ df_getitem (fig_data fig) "Sales" = Ok (map CFloat sales)
       ∧ df_getitem (fig_data fig) "Customers" = Ok (map CFloat customers)
       ∧ df_getitem (fig_data fig) "Satisfaction" = Ok (map CFloat satisfaction)
       ∧ metrics shown
         = [("Average Sales", "$" +:+ format_float ",.0f" (series_mean sales));
            ("Total Customers", format_float ",.0f" (series_sum customers));
            ("Avg Satisfaction",
             format_float ".1f" (series_mean satisfaction) +:+ "/5.0")])
  ∧ (∀ (sales customers satisfaction : list Q) (ss : session),
       length sales = 12%nat →
       length customers = 12%nat →
       length satisfaction = 12%nat →
       ∃ shown fig,
         show_demo_analytics (N := replay) ss (sales ++ customers ++ satisfaction)
         = Ok (tt, [], [Block (Call "show_demo_analytics") shown])
         ∧ charts shown = [fig]
         ∧ df_getitem (fig_data fig) "Sales" = Ok (map CFloat sales)
         ∧ df_getitem (fig_data fig) "Customers" = Ok (map CFloat customers)
         ∧ df_getitem (fig_data fig) "Satisfaction" = Ok (map CFloat satisfaction)).
Proof.
  split.
  - intros N ss g.
    destruct (show_demo_analytics_total ss g)
      as (sales & g1 & customers & g2 & satisfaction & g3 & E1 & E2 & E3 & Hrun).
    exists sales, g1, customers, g2, satisfaction, g3.
    eexists _, _. do 3 (split; [assumption|]).
    split; [exact Hrun|].
    split; [reflexivity|].
    repeat split.
  - intros sales customers satisfaction ss Hs Hc Hf.
    pose proof (draws_replay 1000 12 sales (customers ++ satisfaction) Hs) as E1.
    pose proof (draws_replay 500 12 customers satisfaction Hc) as E2.
    pose proof (draws_replay 3.5 12 satisfaction [] Hf) as E3.
    rewrite app_nil_r in E3.
    eexists _, _. split.
    + exact (show_demo_analytics_run (N := replay) ss _ _ _ _ _ _ _ E1 E2 E3).
    + repeat split.
Qed.

(** ** C8 *)

(** C8. Whatever the sessions and the states of the generator, two runs of
    the Demo Analytics renderer chart frames of 12 rows with the same [Date]
    column, the month ends of 2024.  And there is a generator with which two
    successive runs, the second starting in the state the first left, show
    different [Sales] columns. *)
Theorem demo_reruns_resample_but_keep_shape :
  (∀ (N : Numeric) (ss1 ss2 : session) (g1 g2 : rng),
     ∃ fig1 fig2,
       charts (trace_of (show_demo_analytics ss1 g1)) = [fig1]
       ∧ charts (trace_of (show_demo_analytics ss2 g2)) = [fig2]
       ∧ n_rows (fig_data fig1) = 12%nat
       ∧ n_rows (fig_data fig2) = 12%nat
       ∧ df_getitem (fig_data fig1) "Date" = Ok (map CDate month_ends_2024)
       ∧ df_getitem (fig_data fig2) "Date" = df_getitem (fig_data fig1) "Date")
  ∧ (∃ (N : Numeric) (ss : session) (g g' g'' : rng) t1 t2 fig1 fig2,
       show_demo_analytics ss g = Ok (tt, g', t1)
       ∧ show_demo_analytics ss g' = Ok (tt, g'', t2)
       ∧ charts t1 = [fig1]
       ∧ charts t2 = [fig2]
       ∧ df_getitem (fig_data fig1) "Sales" ≠ df_getitem (fig_data fig2) "Sales").
Proof.
  split.
  - intros N ss1 ss2 g1 g2.
    destruct (show_demo_analytics_total ss1 g1)
      as (s1 & ? & c1 & ? & f1 & ? & _ & _ & _ & ->).
    destruct (show_demo_analytics_total ss2 g2)
      as (s2 & ? & c2 & ? & f2 & ? & _ & _ & _ & ->).
    eexists _, _. split; [reflexivity|]. split; [reflexivity|].
    repeat split.
  - destruct (show_demo_analytics_total (N := replay) example_session example_tape)
      as (s1 & a1 & c1 & b1 & f1 & g' & E1 & E2 & E3 & Hrun1).
    destruct (show_demo_analytics_total (N := replay) example_session g')
      as (s2 & a2 & c2 & b2 & f2 & g'' & E1' & _ & _ & Hrun2).
    exists replay, example_session, example_tape, g', g''.
    eexists _, _, _, _.
    split; [exact Hrun1|]. split; [exact Hrun2|].
    split; [reflexivity|]. split; [reflexivity|].
    (* the first run consumes samples 1 to 36 of the tape, the second starts at 37 *)
    vm_compute in E1. injection E1 as <- <-.
    vm_compute in E2. injection E2 as <- <-.
    vm_compute in E3. injection E3 as <- <-.
    vm_compute in E1'. injection E1' as <- <-.
    intros Heq. injection Heq as Heq. discriminate Heq.
Qed.

(** ** The statements with a hypothesis, on a concrete run *)

(** C1 on the example session: the radio returns "Demo Analytics". *)
Lemma main_invokes_the_selected_renderer_once_witness :
  (example_session "Choose a section:" < length page_options)%nat
  ∧ (page_options = ["Overview"; "Tool Explorer"; "Features Comparison";
                     "Industry Applications"; "Demo Analytics"]
     ∧ keys (renderers (N := replay)) = page_options
     ∧ map (fun r => r.2.1) (renderers (N := replay))
       = ["show_overview"; "show_tool_explorer"; "show_features_comparison";
          "show_industry_applications"; "show_demo_analytics"]
     ∧ ∃ page name renderer g' shown,
         page_options !! example_session "Choose a section:" = Some page
         ∧ getitem (renderers (N := replay)) page = Ok (name, renderer)
         ∧ renderer example_session example_tape
           = Ok (tt, g', [Block (Call name) shown])
         ∧ main example_session example_tape
           = Ok (tt, g', [Block (Call "main")
                            (main_chrome page ++ [Block (Call name) shown])])
         ∧ calls (trace_of (main example_session example_tape)) = ["main"; name]
         ∧ calls (trace_of (script example_session example_tape)) = ["main"; name]).
Proof.
  assert (example_session "Choose a section:" < length page_options)%nat as Hlt
    by (vm_compute; lia).
  split; [exact Hlt|].
  exact (main_invokes_the_selected_renderer_once
           (N := replay) example_session example_tape Hlt).
Defined.

(** C2 on the example session: the select box returns "SAS Visual Analytics". *)
Lemma tool_explorer_shows_selected_tool_only_witness :
  keys sas_tools !! example_session "Select a SAS tool to explore:"
  = Some "SAS Visual Analytics"
  ∧ ∃ info shown,
      getitem sas_tools "SAS Visual Analytics" = Ok info
      ∧ show_tool_explorer (N := replay) example_session example_tape
        = Ok (tt, example_tape, [Block (Call "show_tool_explorer") shown])
      ∧ shown = tool_page "SAS Visual Analytics" info
      ∧ texts shown
        = description info
          :: (map bullet (key_features info) ++ map pin (use_cases info))
      ∧ Forall (fun other =>
                  other.1 ≠ "SAS Visual Analytics" →
                  (description other.2 ∉ texts shown)
                  ∧ Forall (fun f => bullet f ∉ texts shown) (key_features other.2)
                  ∧ Forall (fun u => pin u ∉ texts shown) (use_cases other.2))
               sas_tools.
Proof.
  split; [reflexivity|].
  exact (tool_explorer_shows_selected_tool_only
           (N := replay) example_session example_tape "SAS Visual Analytics"
           eq_refl).
Defined.

(** C7 on the example session. *)
Lemma tool_explorer_output_nonempty_witness :
  keys sas_tools !! example_session "Select a SAS tool to explore:"
  = Some "SAS Visual Analytics"
  ∧ ∃ info shown shown_description shown_features shown_use_cases,
      getitem sas_tools "SAS Visual Analytics" = Ok info
      ∧ show_tool_explorer (N := replay) example_session example_tape
        = Ok (tt, example_tape, [Block (Call "show_tool_explorer") shown])
      ∧ column_texts 0 shown = shown_description :: shown_features
      ∧ column_texts 1 shown = shown_use_cases
      ∧ shown_description = description info
      ∧ shown_features = map bullet (key_features info)
      ∧ shown_use_cases = map pin (use_cases info)
      ∧ (0 < String.length shown_description)%nat
      ∧ (0 < length shown_features)%nat
      ∧ (0 < length shown_use_cases)%nat.
Proof.
  split; [reflexivity|].
  exact (tool_explorer_output_nonempty
           (N := replay) example_session example_tape "SAS Visual Analytics"
           eq_refl).
Defined.

(** C6 on three constant columns. *)
Lemma demo_series_and_summary_statistics_witness :
  length (replicate 12 (1000 : Q)) = 12%nat
  ∧ length (replicate 12 (500 : Q)) = 12%nat
  ∧ length (replicate 12 (4 : Q)) = 12%nat
  ∧ ∃ shown fig,
      show_demo_analytics (N := replay) example_session
        (replicate 12 (1000 : Q) ++ replicate 12 (500 : Q) ++ replicate 12 (4 : Q))
      = Ok (tt, [], [Block (Call "show_demo_analytics") shown])
      ∧ charts shown = [fig]
      ∧ df_getitem (fig_data fig) "Sales" = Ok (map CFloat (replicate 12 (1000 : Q)))
      ∧ df_getitem (fig_data fig) "Customers"
        = Ok (map CFloat (replicate 12 (500 : Q)))
      ∧ df_getitem (fig_data fig) "Satisfaction"
        = Ok (map CFloat (replicate 12 (4 : Q))).
Proof.
  do 3 (split; [reflexivity|]).
  exact (proj2 demo_series_and_summary_statistics
           (replicate 12 (1000 : Q)) (replicate 12 (500 : Q)) (replicate 12 (4 : Q))
           example_session eq_refl eq_refl eq_refl).
Defined.

(** * Further properties of the renderers *)

Section Renderers.
Context {N : Numeric}.

Ltac step_ui :=
  unfold def, within, mbind, ui_bind, bind, lift, ret, emit,
    st_radio, st_selectbox, st_title, st_markdown, st_header, st_subheader,
    st_write, st_columns, st_dataframe, st_plotly_chart, st_metric.

(** ** Traces, block by block *)

Lemma elements_app t1 t2 : elements (t1 ++ t2) = elements t1 ++ elements t2.
Proof. unfold elements. by rewrite map_app, concat_app. Qed.

Lemma elements_block c body t :
  elements (Block c body :: t) = Block c body :: elements body ++ elements t.
Proof. reflexivity. Qed.

Lemma page_configs_block c body t :
  page_configs (Block c body :: t) = page_configs body ++ page_configs t.
Proof. unfold page_configs. rewrite elements_block. cbn [omap list_omap]. apply omap_app. Qed.

Lemma page_configs_app t1 t2 : page_configs (t1 ++ t2) = page_configs t1 ++ page_configs t2.
Proof. unfold page_configs. by rewrite elements_app, omap_app. Qed.

Lemma sidebar_call_block f body t :
  sidebar (Block (Call f) body :: t) = sidebar body ++ sidebar t.
Proof.
  unfold sidebar. rewrite elements_block. cbn [omap list_omap].
  by rewrite omap_app, concat_app.
Qed.

Lemma sidebar_app t1 t2 : sidebar (t1 ++ t2) = sidebar t1 ++ sidebar t2.
Proof. unfold sidebar. by rewrite elements_app, omap_app, concat_app. Qed.

(** ** The pages and their renderers *)

Lemma page_has_renderer i page :
  page_options !! i = Some page →
  ∃ name renderer, (page, (name, renderer)) ∈ renderers
                   ∧ getitem renderers page = Ok (name, renderer).
Proof.
  intros Hpage. destruct i as [|[|[|[|[|i]]]]]; simpl in Hpage; try discriminate;
    injection Hpage as <-; do 2 eexists; (split; [|reflexivity]).
  all: unfold renderers; repeat first [apply list_elem_of_here | apply list_elem_of_further].
Qed.

(** No renderer configures the page or writes to the sidebar. *)
Lemma renderer_stays_in_page ss g page name renderer :
  (page, (name, renderer)) ∈ renderers →
  page_configs (trace_of (renderer ss g)) = []
  ∧ sidebar (trace_of (renderer ss g)) = [].
Proof.
  intros H. unfold renderers in H.
  repeat (apply elem_of_cons in H as [[= -> -> ->]|H]);
    [| | | | |by apply elem_of_nil in H].
  - split; reflexivity.
  - unfold show_tool_explorer. step_ui.
    destruct (ss "Select a SAS tool to explore:") as [|[|[|[|n]]]];
      split; reflexivity.
  - split; reflexivity.
  - split; reflexivity.
  - destruct (show_demo_analytics_total ss g)
      as (sales & g1 & customers & g2 & satisfaction & g3 & _ & _ & _ & ->).
    split; reflexivity.
Qed.

(** [main], whatever the session: the chrome, then what the selected
    renderer sent, if one was selected. *)
Lemma main_shape ss g :
  ∃ g' rest,
    main ss g
    = Ok (tt, g', [Block (Call "main")
                     ([Title "🔍 SAS Analytics Tools Explorer";
                       Markdown "---";
                       Block Sidebar [Title "Navigation"];
                       Block Sidebar [Radio "Choose a section:" page_options
                                        (page_options !! ss "Choose a section:")]]
                      ++ rest)])
    ∧ page_configs rest = []
    ∧ sidebar rest = [].
Proof.
  destruct (page_options !! ss "Choose a section:") as [page|] eqn:Hpage.
  - destruct (page_has_renderer _ _ Hpage) as (name & renderer & Hin & Hr).
    destruct (renderer_completes ss g page name renderer Hin) as (g' & shown & Hrun & _).
    destruct (renderer_stays_in_page ss g page name renderer Hin) as [Hpc Hsb].
    rewrite Hrun in Hpc, Hsb. unfold trace_of in Hpc, Hsb.
    exists g', [Block (Call name) shown].
    rewrite (main_run ss g page name renderer Hpage Hr), Hrun. done.
  - exists g, []. split; [|done].
    unfold main. step_ui. rewrite Hpage. reflexivity.
Qed.

(** ** The loops *)


(** ** Overview *)

(** X2. The Overview writes, after its introduction, the five benefits
    into the first of two columns of equal width and the five industries into
    the second, each list in its order and in full: the columns are equally
    long. *)
Theorem overview_shows_benefits_then_industries (ss : session) (g : rng) :
  ∃ shown intro,
    show_overview ss g = Ok (tt, g, [Block (Call "show_overview") shown])
    ∧ texts shown = intro :: benefits ++ overview_industries
    ∧ column_texts 0 shown = benefits
    ∧ column_texts 1 shown = overview_industries
    ∧ length (column_texts 0 shown) = length (column_texts 1 shown)
    ∧ Columns [1; 1]%nat ∈ shown.
Proof.
  unfold show_overview. step_ui. eexists _, _. split; [reflexivity|].
  do 4 (split; [reflexivity|]).
  do 2 apply list_elem_of_further. apply list_elem_of_here.
Qed.

(** ** The whole script *)

(** X3. For every session and every state of the generator, also when no
    page is selected, a run of the script completes without raising; the page
    configuration is the first element it sends, and the only one. *)
Theorem script_completes_with_one_page_config (ss : session) (g : rng) :
  ∃ g' t,
    script ss g
    = Ok (tt, g', PageConfig "SAS Analytics Tools Explorer" "📊" "wide" :: t)
    ∧ page_configs t = []
    ∧ page_configs (trace_of (script ss g))
      = [PageConfig "SAS Analytics Tools Explorer" "📊" "wide"].
Proof.
  destruct (main_shape ss g) as (g' & rest & Hmain & Hpc & _).
  assert (page_configs (trace_of (main ss g)) = []) as Hnone.
  { rewrite Hmain. unfold trace_of.
    by rewrite page_configs_block, page_configs_app, Hpc. }
  rewrite Hmain in Hnone. unfold trace_of in Hnone.
  eexists g', _. rewrite script_run, Hmain. split; [reflexivity|].
  split; [exact Hnone|].
  unfold trace_of.
  change (page_configs (PageConfig "SAS Analytics Tools Explorer" "📊" "wide"
                          :: ?t))
    with (PageConfig "SAS Analytics Tools Explorer" "📊" "wide" :: page_configs t).
  by rewrite Hnone.
Qed.

(** X4. Whatever page is selected, the sidebar of a run holds the title
    "Navigation" and the radio with the five page options, showing the
    session's selection, and nothing else: no renderer writes to it. *)
Theorem sidebar_holds_title_and_radio (ss : session) (g : rng) :
  sidebar (trace_of (script ss g))
  = [Title "Navigation";
     Radio "Choose a section:"
       ["Overview"; "Tool Explorer"; "Features Comparison";
        "Industry Applications"; "Demo Analytics"]
       (page_options !! ss "Choose a section:")].
Proof.
  destruct (main_shape ss g) as (g' & rest & Hmain & _ & Hsb).
  rewrite script_run, Hmain. unfold trace_of.
  change (sidebar (PageConfig "SAS Analytics Tools Explorer" "📊" "wide" :: ?t))
    with (sidebar t).
  rewrite sidebar_call_block, sidebar_app, Hsb. reflexivity.
Qed.


(** ** Tool Explorer *)


(** X7. The Tool Explorer reads the session through its select box only and
    does not touch the generator: two sessions that agree on that select box
    get the same page, whatever else they select and whatever the state of
    the generator, which each run returns unchanged. *)
Theorem tool_explorer_depends_on_its_select_box (ss ss' : session) (g g' : rng) :
  ss "Select a SAS tool to explore:" = ss' "Select a SAS tool to explore:" →
  ∃ t, show_tool_explorer ss g = Ok (tt, g, t)
       ∧ show_tool_explorer ss' g' = Ok (tt, g', t).
Proof.
  intros Hsame. unfold show_tool_explorer. step_ui. rewrite <- Hsame.
  destruct (ss "Select a SAS tool to explore:") as [|[|[|[|n]]]];
    eexists; split; reflexivity.
Qed.





(** ** The pages without controls *)

(** X9. The Overview, the Features Comparison and the Industry Applications
    read no widget and draw no sample: each sends the same page for every
    session and every state of the generator, and returns that state
    unchanged. *)
Theorem static_pages_ignore_session_and_generator
    (ss ss' : session) (g g' : rng) :
  Forall (fun renderer : UI unit =>
            ∃ t, renderer ss g = Ok (tt, g, t) ∧ renderer ss' g' = Ok (tt, g', t))
         [show_overview; show_features_comparison; show_industry_applications].
Proof.
  repeat apply Forall_cons_2; try apply Forall_nil_2.
  - unfold show_overview. step_ui. eexists. split; reflexivity.
  - destruct (show_features_comparison_run ss g) as (df & Hdf & Hrun).
    destruct (show_features_comparison_run ss' g') as (df' & Hdf' & Hrun').
    rewrite Hdf in Hdf'. injection Hdf' as <-.
    eexists. split; [exact Hrun|exact Hrun'].
  - unfold show_industry_applications. step_ui. eexists. split; reflexivity.
Qed.

(** X10. Unless the Demo Analytics page is selected, a run of the script
    draws no sample: it returns the generator in the state it found it. *)
Theorem only_the_demo_page_draws (ss : session) (g : rng) :
  page_options !! ss "Choose a section:" ≠ Some "Demo Analytics" →
  ∃ t, script ss g = Ok (tt, g, t).
Proof.
  intros Hpage. rewrite script_run.
  destruct (page_options !! ss "Choose a section:") as [page|] eqn:Hsel.
  - destruct (page_has_renderer _ _ Hsel) as (name & renderer & Hin & Hr).
    rewrite (main_run ss g page name renderer Hsel Hr).
    unfold renderers in Hin.
    repeat (apply elem_of_cons in Hin as [[= -> -> ->]|Hin]);
      [| | | |done|by apply elem_of_nil in Hin].
    + destruct (show_overview_run ss g) as (t & -> & _). eauto.
    + destruct (keys sas_tools !! ss "Select a SAS tool to explore:") as [tool|] eqn:E.
      * destruct (show_tool_explorer_run ss g tool E) as (info & _ & -> & _). eauto.
      * rewrite (show_tool_explorer_unselected ss g E). eauto.
    + destruct (show_features_comparison_run ss g) as (df & _ & ->). eauto.
    + destruct (show_industry_applications_run ss g) as (t & fig & -> & _). eauto.
  - unfold main. step_ui. rewrite Hsel. eauto.
Qed.

(** ** Features Comparison *)

(** The colour of a boolean cell. *)
Lemma cell_color_bool (b : bool) :
  cell_color (CBool b)
  = if b then "background-color: #90EE90" else "background-color: #FFB6C1".
Proof. by destruct b. Qed.

(** Colouring a frame of booleans, whatever the table. *)
Lemma styled_bool_table (data : dict (list bool)) (index : option (list cell))
    (df : DataFrame) :
  pd_DataFrame (map (fun c => (c.1, map CBool c.2)) data) index = Ok df →
  styled_css (style_applymap cell_color df)
  = map (fun c => (c.1, map (fun b : bool =>
                               if b then "background-color: #90EE90"
                               else "background-color: #FFB6C1") c.2)) data.
Proof.
  intros Hdf.
  assert (df_columns df = map (fun c => (c.1, map CBool c.2)) data) as Hcols.
  { unfold pd_DataFrame in Hdf.
    repeat case_match; simplify_eq; done. }
  unfold style_applymap. cbn [styled_css]. rewrite Hcols, map_map.
  apply map_ext. intros [k bs]. cbn [fst snd]. f_equal.
  rewrite map_map. apply map_ext. intros b. apply cell_color_bool.
Qed.

(** X11. The table of the Features Comparison keeps the frame as it is and
    colours it cell by cell: a cell is light green exactly when the tool has
    the feature, light pink otherwise. *)
Theorem comparison_cells_are_green_iff_true (ss : session) (g : rng) :
  ∃ styled,
    tables (trace_of (show_features_comparison ss g)) = [styled]
    ∧ df_columns (styled_frame styled)
      = map (fun c => (c.1, map CBool c.2)) comparison_data
    ∧ styled_css styled
      = map (fun c => (c.1, map (fun b : bool =>
                                   if b then "background-color: #90EE90"
                                   else "background-color: #FFB6C1") c.2))
            comparison_data.
Proof.
  destruct (show_features_comparison_run ss g) as (df & Hdf & Hrun).
  exists (style_applymap cell_color df). rewrite Hrun.
  split; [reflexivity|]. split.
  - injection Hdf as <-. reflexivity.
  - exact (styled_bool_table comparison_data _ df Hdf).
Qed.

(** ** Industry Applications *)

(** X12. The Industry Applications page has one expander per entry of
    [industries], in the dictionary's order; each is labelled with the
    entry's icon and name and holds the line "Common Applications:" followed
    by one bullet per application of that entry, in order. *)
Theorem industry_expanders_list_their_applications (ss : session) (g : rng) :
  expander_texts (trace_of (show_industry_applications ss g))
  = map (fun entry =>
           (icon entry.2 +:+ " " +:+ entry.1,
            "Common Applications:" :: map bullet (applications entry.2)))
        industries
  ∧ Forall (fun shown => (2 ≤ length shown.2)%nat)
           (expander_texts (trace_of (show_industry_applications ss g))).
Proof.
  assert (expander_texts (trace_of (show_industry_applications ss g))
          = map (fun entry =>
                   (icon entry.2 +:+ " " +:+ entry.1,
                    "Common Applications:" :: map bullet (applications entry.2)))
                industries) as Hexp by reflexivity.
  split; [exact Hexp|]. rewrite Hexp.
  unfold industries. cbn [map].
  repeat apply Forall_cons_2; try apply Forall_nil_2.
  all: cbn [snd applications map length]; lia.
Qed.

(** ** Demo Analytics *)


(** X14. When the select box returns one of the three metrics, the line
    chart plots that metric's column against the dates: twelve points, the
    i-th being the i-th month end of 2024 with the i-th sample of the column,
    under the title "<metric> Trend Analysis". *)
Theorem line_chart_plots_the_chosen_metric (ss : session) (g : rng)
    (metric : string) :
  ["Sales"; "Customers"; "Satisfaction"] !! ss "Select metric to visualize:"
  = Some metric →
  ∃ g' shown fig xs,
    show_demo_analytics ss g = Ok (tt, g', [Block (Call "show_demo_analytics") shown])
    ∧ charts shown = [fig]
    ∧ fig_kind fig = Line
    ∧ fig_x fig = "Date"
    ∧ fig_y fig = Some metric
    ∧ fig_title fig = metric +:+ " Trend Analysis"
    ∧ df_getitem (fig_data fig) metric = Ok (map CFloat xs)
    ∧ length xs = 12%nat
    ∧ chart_points fig = zip (map CDate month_ends_2024) (map CFloat xs)
    ∧ length (chart_points fig) = 12%nat.
Proof.
  intros Hmetric.
  destruct (show_demo_analytics_total ss g)
    as (sales & g1 & customers & g2 & satisfaction & g3 & E1 & E2 & E3 & Hrun).
  apply draws_eq_length in E1, E2, E3.
  rewrite Hmetric in Hrun.
  assert (∀ xs : list float,
            length xs = 12%nat →
            length (zip (map CDate month_ends_2024) (map CFloat xs)) = 12%nat)
    as Hzip.
  { intros xs Hxs. rewrite length_zip_with, !length_map, Hxs. reflexivity. }
  destruct (ss "Select metric to visualize:") as [|[|[|n]]];
    simpl in Hmetric; try discriminate; injection Hmetric as <-.
  - eexists g3, _, _. exists sales. split; [exact Hrun|].
    do 6 (split; [reflexivity|]). split; [exact E1|].
    split; [reflexivity|]. by apply Hzip.
  - eexists g3, _, _. exists customers. split; [exact Hrun|].
    do 6 (split; [reflexivity|]). split; [exact E2|].
    split; [reflexivity|]. by apply Hzip.
  - eexists g3, _, _. exists satisfaction. split; [exact Hrun|].
    do 6 (split; [reflexivity|]). split; [exact E3|].
    split; [reflexivity|]. by apply Hzip.
Qed.


End Renderers.

(** ** The further statements with a hypothesis, on concrete runs *)



(** X7 on two sessions that differ in the page they select. *)
Lemma tool_explorer_depends_on_its_select_box_witness :
  example_session "Select a SAS tool to explore:"
  = (fun _ => 2%nat) "Select a SAS tool to explore:"
  ∧ ∃ t, show_tool_explorer (N := replay) example_session example_tape
         = Ok (tt, example_tape, t)
         ∧ show_tool_explorer (N := replay) (fun _ => 2%nat) [] = Ok (tt, [], t).
Proof.
  split; [reflexivity|].
  exact (tool_explorer_depends_on_its_select_box
           (N := replay) example_session (fun _ => 2%nat) example_tape [] eq_refl).
Defined.


(** X10 on a session that selects the Tool Explorer. *)
Lemma only_the_demo_page_draws_witness :
  page_options !! (fun _ : string => 1%nat) "Choose a section:"
  ≠ Some "Demo Analytics"
  ∧ ∃ t, script (N := replay) (fun _ => 1%nat) example_tape
         = Ok (tt, example_tape, t).
Proof.
  assert (page_options !! (fun _ : string => 1%nat) "Choose a section:"
          ≠ Some "Demo Analytics") as Hpage by discriminate.
  split; [exact Hpage|].
  exact (only_the_demo_page_draws (N := replay) (fun _ => 1%nat) example_tape Hpage).
Defined.

(** X14 on the example session, which selects "Satisfaction". *)
Lemma line_chart_plots_the_chosen_metric_witness :
  ["Sales"; "Customers"; "Satisfaction"]
    !! example_session "Select metric to visualize:" = Some "Satisfaction"
  ∧ ∃ g' shown fig xs,
      show_demo_analytics (N := replay) example_session example_tape
      = Ok (tt, g', [Block (Call "show_demo_analytics") shown])
      ∧ charts shown = [fig]
      ∧ fig_kind fig = Line
      ∧ fig_x fig = "Date"
      ∧ fig_y fig = Some "Satisfaction"
      ∧ fig_title fig = "Satisfaction" +:+ " Trend Analysis"
      ∧ df_getitem (fig_data fig) "Satisfaction" = Ok (map CFloat xs)
      ∧ length xs = 12%nat
      ∧ chart_points fig = zip (map CDate month_ends_2024) (map CFloat xs)
      ∧ length (chart_points fig) = 12%nat.
Proof.
  split; [reflexivity|].
  exact (line_chart_plots_the_chosen_metric
           (N := replay) example_session example_tape "Satisfaction" eq_refl).
Defined.
